(** * verify_membership_list.py: a browser smoke check

    Shallow embedding of [jules-scratch/verification/verify_membership_list.py].
    The script drives a headless browser through Playwright's synchronous
    API.  The browser, the target page and the file system are external; they
    are described by an environment [env] (which calls fail, how long they
    take, what the page shows over time).  The script itself is a program in
    a state-and-exception monad over a [world] holding a logical clock, the
    log of API calls made, the file system and the standard output.  The
    standard output is part of the environment too: it may be unwritable,
    buffered or not, and unable to encode some text. *)

From stdpp Require Import gmap strings list.
From Stdlib Require Import NArith Lia.

Open Scope N_scope.

(** ** Python exceptions *)

Module Python.

(** The exception classes the script can meet.  All derive from [Exception]
    but [KeyboardInterrupt], which derives from [BaseException] only, so
    that an [except Exception] clause does not catch it.  [OSError] and
    [UnicodeEncodeError] are what a write to standard output can raise. *)
Inductive exn_class :=
| PlaywrightError | TimeoutError | AssertionError
| OSError | UnicodeEncodeError
| KeyboardInterrupt.

Record exn := Exn { exn_cls : exn_class; exn_msg : string }.

(** [isinstance(e, Exception)] *)
Definition is_Exception (e : exn) : bool :=
  match exn_cls e with
  | KeyboardInterrupt => false
  | _ => true
  end.

Inductive result (A : Type) :=
| Ok (a : A)
| Raise (e : exn).
Arguments Ok {A} a.
Arguments Raise {A} e.

Definition raised {A} (r : result A) : Prop :=
  match r with Ok _ => False | Raise _ => True end.

(** Status the interpreter derives from the outcome [r] of the module body:
    0 on normal completion, 1 after an uncaught exception (130 for an
    uncaught KeyboardInterrupt). *)
Definition uncaught_status (r : result unit) : N :=
  match r with
  | Ok _ => 0
  | Raise e => if is_Exception e then 1 else 130
  end.

End Python.
Export Python.

(** ** The world the script acts on *)

(** An image file: whether it shows the whole scrollable page or only the
    viewport, and the clock value at which it was captured. *)
Record image := Image { img_full_page : bool; img_taken_at : N }.

(** Playwright locators are lazy descriptions of elements. *)
Inductive locator :=
| GetByRole (role name : string)
| Locator (selector : string).

(** The API calls that reach the browser, with the arguments the caller gave
    ([None] for an optional argument that was left out). *)
Inductive call :=
| Start                                                     (* sync_playwright().__enter__ *)
| Launch (headless : bool)                                  (* chromium.launch *)
| NewContext                                                (* browser.new_context *)
| NewPage                                                   (* context.new_page *)
| Goto (url : string) (timeout : option N)                  (* page.goto *)
| ExpectVisible (l : locator) (timeout : N)                 (* expect(l).to_be_visible *)
| ExpectCount (l : locator) (n : nat) (timeout : N)         (* expect(l).to_have_count *)
| Screenshot (path : string) (full_page : option bool)      (* page.screenshot *)
| Close                                                     (* browser.close *)
| Stop.                                                     (* sync_playwright().__exit__ *)

Record world := World {
  now : N;                              (* logical clock, in ms *)
  trace : list (call * option exn);     (* calls made, oldest first, with the exception raised if any *)
  fs : gmap string image;               (* image files on disk *)
  stdout : list string                  (* lines accepted by standard output *)
}.

(** What the script cannot control. *)
Record env := Env {
  fault : call → option exn;            (* the call fails with this exception *)
  latency : call → N;                   (* time a call takes, in ms *)
  visible : locator → N → bool;         (* the locator resolves to a visible element at time t *)
  count : locator → N → nat;            (* number of elements the locator resolves to at time t *)
  stdout_writable : bool;               (* the device behind standard output takes the bytes *)
  stdout_buffered : bool;               (* writes are held back until the interpreter exits *)
  stdout_encodes : string → bool        (* the encoding of standard output covers this text *)
}.

Definition tick (d : N) (w : world) : world :=
  World (now w + d) (trace w) (fs w) (stdout w).

Definition set_now (t : N) (w : world) : world :=
  World t (trace w) (fs w) (stdout w).

Definition record (c : call) (o : option exn) (w : world) : world :=
  World (now w) (trace w ++ [(c, o)]) (fs w) (stdout w).

Definition write (path : string) (img : image) (w : world) : world :=
  World (now w) (trace w) (<[path := img]> (fs w)) (stdout w).

Definition emit (line : string) (w : world) : world :=
  World (now w) (trace w) (fs w) (stdout w ++ [line]).

(** A process starts with an empty call log and nothing printed. *)
Definition boot (t0 : N) (disk : gmap string image) : world := World t0 [] disk [].

(** ** Standard output *)

(** Every encoding of standard output covers ASCII text. *)
Fixpoint is_ascii (s : string) : bool :=
  match s with
  | EmptyString => true
  | String a s' => N.ltb (Ascii.N_of_ascii a) 128 && is_ascii s'
  end.

(** What [print(line)] raises, if anything: UnicodeEncodeError when the
    encoding does not cover the text, OSError when the device refuses the
    bytes and the stream writes them through at once.  The state of the
    device is that of the environment: it is the same for every print of a
    run. *)
Definition print_error (E : env) (line : string) : option exn :=
  if negb (is_ascii line || stdout_encodes E line) then
    Some (Exn UnicodeEncodeError "codec can't encode character")
  else if negb (stdout_writable E) && negb (stdout_buffered E) then
    Some (Exn OSError "[Errno 28] No space left on device")
  else None.

(** The flush of standard output at interpreter exit fails: there is text
    held back and the device refuses it. *)
Definition flush_fails (E : env) (w : world) : bool :=
  negb (stdout_writable E) && stdout_buffered E && negb (bool_decide (stdout w = [])).

(** Exit status of the process: 120 when the final flush of standard output
    fails, otherwise the status of the module body's outcome. *)
Definition exit_status (E : env) (rw : result unit * world) : N :=
  if flush_fails E rw.2 then 120 else uncaught_status rw.1.

(** ** Bounded waiting *)

(** First instant [t], among [fuel] consecutive ones from [t0], at which [p] holds. *)
Fixpoint first_from (p : N → bool) (t0 : N) (fuel : nat) : option N :=
  match fuel with
  | O => None
  | S k => if p t0 then Some t0 else first_from p (N.succ t0) k
  end.

(** First instant of the closed window [start, start + window] at which [p] holds. *)
Definition first_within (p : N → bool) (start window : N) : option N :=
  first_from p start (S (N.to_nat window)).

(** ** The monad of scripts *)

Definition M (A : Type) : Type := world → result A * world.

Global Instance M_ret : MRet M := λ A a w, (Ok a, w).

Global Instance M_bind : MBind M := λ A B f m w,
  match m w with
  | (Ok a, w') => f a w'
  | (Raise e, w') => (Raise e, w')
  end.

(** [try: body / except Exception as e: handler e] *)
Definition try_except {A} (body : M A) (handler : exn → M A) : M A := λ w,
  match body w with
  | (Ok a, w') => (Ok a, w')
  | (Raise e, w') => if is_Exception e then handler e w' else (Raise e, w')
  end.

(** [try: body / finally: final].  The final block always runs; an exception
    it raises replaces the outcome of the body. *)
Definition try_finally {A} (body : M A) (final : M unit) : M A := λ w,
  match body w with
  | (r, w') =>
      match final w' with
      | (Ok _, w'') => (r, w'')
      | (Raise e, w'') => (Raise e, w'')
      end
  end.

(** [with enter as x: body x], where [exit x exc] is [__exit__]; a true
    return value of [__exit__] suppresses the pending exception. *)
Definition with_stmt {A} (enter : M A) (exit : A → option exn → M bool)
    (body : A → M unit) : M unit := λ w,
  match enter w with
  | (Raise e, w0) => (Raise e, w0)
  | (Ok x, w0) =>
      match body x w0 with
      | (Ok _, w1) =>
          match exit x None w1 with
          | (Ok _, w2) => (Ok (), w2)
          | (Raise e', w2) => (Raise e', w2)
          end
      | (Raise e, w1) =>
          match exit x (Some e) w1 with
          | (Ok true, w2) => (Ok (), w2)
          | (Ok false, w2) => (Raise e, w2)
          | (Raise e', w2) => (Raise e', w2)
          end
      end
  end.

(** ** Playwright's synchronous API *)

Inductive playwright := PlaywrightH.
Inductive browser := BrowserH.
Inductive context := ContextH.
Inductive page := PageH.

Section Playwright.

Variable E : env.

(** [print(line)]: the line is accepted by standard output, or the write
    raises. *)
Definition print (line : string) : M unit := λ w,
  match print_error E line with
  | Some e => (Raise e, w)
  | None => (Ok (), emit line w)
  end.

(** A call that takes its latency and then either fails or has its effect. *)
Definition invoke (c : call) (effect : world → world) : M unit := λ w,
  let w1 := tick (latency E c) w in
  match fault E c with
  | Some e => (Raise e, record c (Some e) w1)
  | None => (Ok (), record c None (effect w1))
  end.

(** A web-first assertion: it returns at the first instant of the window
    [now, now + timeout] at which the condition holds, and raises
    AssertionError when the window ends without it.  A fault interrupts
    the wait no later than the end of the window. *)
Definition await (c : call) (cond : N → bool) (timeout : N) : M unit := λ w,
  match fault E c with
  | Some e => (Raise e, record c (Some e) (tick (N.min (latency E c) timeout) w))
  | None =>
      match first_within cond (now w) timeout with
      | Some t => (Ok (), record c None (set_now t w))
      | None =>
          let e := Exn AssertionError "Locator expected condition not met" in
          (Raise e, record c (Some e) (tick timeout w))
      end
  end.

Definition sync_playwright_enter : M playwright :=
  invoke Start id;; mret PlaywrightH.

(** [__exit__] stops the driver and returns None: nothing is suppressed. *)
Definition sync_playwright_exit (_ : playwright) (_ : option exn) : M bool :=
  invoke Stop id;; mret false.

Definition launch (_ : playwright) (headless : bool) : M browser :=
  invoke (Launch headless) id;; mret BrowserH.

Definition new_context (_ : browser) : M context :=
  invoke NewContext id;; mret ContextH.

Definition new_page (_ : context) : M page :=
  invoke NewPage id;; mret PageH.

Definition goto (_ : page) (url : string) (timeout : option N) : M unit :=
  invoke (Goto url timeout) id.

Definition get_by_role (_ : page) (role name : string) : locator := GetByRole role name.

Definition page_locator (_ : page) (selector : string) : locator := Locator selector.

Definition expect_to_be_visible (l : locator) (timeout : N) : M unit :=
  await (ExpectVisible l timeout) (visible E l) timeout.

Definition expect_to_have_count (l : locator) (n : nat) (timeout : N) : M unit :=
  await (ExpectCount l n timeout) (λ t, Nat.eqb (count E l t) n) timeout.

(** [page.screenshot(path=..., full_page=...)]: [full_page] defaults to
    false, which captures the visible viewport only. *)
Definition screenshot (_ : page) (path : string) (full_page : option bool) : M unit :=
  invoke (Screenshot path full_page)
         (λ w, write path (Image (default false full_page) (now w)) w).

Definition close (_ : browser) : M unit := invoke Close id.

(** ** The script *)

Definition run_verification (playwright : playwright) : M unit :=
  browser ← launch playwright true;
  context ← new_context browser;
  page ← new_page context;
  try_finally
    (try_except
       ((* 1. Navigate to the membership list page *)
        goto page "http://localhost:3000/memberships/listMembership" None;;
        (* 2. Wait for the main heading to be visible to ensure the page has loaded *)
        expect_to_be_visible (get_by_role page "heading" "Membresías") 10000;;
        (* 3. Wait for the table to be populated with at least one row *)
        expect_to_have_count (page_locator page "#membershipsTableBody tr") 1 10000;;
        (* 4. Take a screenshot for visual verification *)
        screenshot page "jules-scratch/verification/verification.png" None;;
        print "Screenshot saved to jules-scratch/verification/verification.png")
       (λ e,
        print ("An error occurred: " +:+ exn_msg e);;
        screenshot page "jules-scratch/verification/error.png" None))
    (close browser).

(** The module body: [with sync_playwright() as playwright: run_verification(playwright)] *)
Definition main : M unit :=
  with_stmt sync_playwright_enter sync_playwright_exit run_verification.

End Playwright.

(** ** Observations on a finished run *)

Definition success_path : string := "jules-scratch/verification/verification.png".
Definition error_path : string := "jules-scratch/verification/error.png".
Definition target_url : string := "http://localhost:3000/memberships/listMembership".
Definition heading : locator := GetByRole "heading" "Membresías".
Definition table_rows : locator := Locator "#membershipsTableBody tr".

Definition is_close (c : call) : bool :=
  match c with Close => true | _ => false end.

Definition is_wait (c : call) : bool :=
  match c with ExpectVisible _ _ | ExpectCount _ _ _ => true | _ => false end.

(** How many of the calls made satisfy [p]. *)
Definition times (p : call → bool) (w : world) : nat :=
  length (List.filter (λ x, p x.1) (trace w)).

(** The image files written: the paths of the screenshot calls that returned. *)
Definition written (w : world) : list string :=
  omap (λ x, match x with (Screenshot p _, None) => Some p | _ => None end) (trace w).


Definition is_goto (c : call) : bool :=
  match c with Goto _ _ => true | _ => false end.

(** The timeout the caller gave to a call, if it gave one. *)
Definition explicit_timeout (c : call) : option N :=
  match c with
  | Goto _ t => t
  | ExpectVisible _ t | ExpectCount _ _ t => Some t
  | _ => None
  end.

(** The calls of the handler and of the finally block. *)
Definition is_cleanup (c : call) : bool :=
  match c with
  | Screenshot p _ => String.eqb p error_path
  | Close => true
  | _ => false
  end.

(** A wait that raised is final: every later call belongs to the handler or
    to the finally block (no wait or navigation is made again). *)
Fixpoint definitive (tr : list (call * option exn)) : bool :=
  match tr with
  | [] => true
  | (c, o) :: rest =>
      (if is_wait c && bool_decide (is_Some o)
       then forallb (λ x, is_cleanup x.1) rest
       else true)
      && definitive rest
  end.

(** One run of [run_verification] in a fresh process, and one run of the
    whole module. *)
Definition run (E : env) (t0 : N) (disk : gmap string image) : result unit * world :=
  run_verification E PlaywrightH (boot t0 disk).

Definition run_main (E : env) (t0 : N) (disk : gmap string image) : result unit * world :=
  main E (boot t0 disk).

(** The three acquisitions before the try block all returned. *)
Definition acquired (E : env) : Prop :=
  fault E (Launch true) = None ∧ fault E NewContext = None ∧ fault E NewPage = None.


(** The instant at which the wait for the heading starts. *)
Definition heading_wait_start (E : env) (t0 : N) : N :=
  t0 + latency E (Launch true) + latency E NewContext + latency E NewPage +
  latency E (Goto target_url None).

(** The line printed after the success screenshot. *)
Definition success_line : string :=
  "Screenshot saved to jules-scratch/verification/verification.png".

Definition is_stop (c : call) : bool :=
  match c with Stop => true | _ => false end.


(** The line printed by the handler for the exception [e]. *)
Definition error_line (e : exn) : string := "An error occurred: " +:+ exn_msg e.


(** The exception a wait raises when its window ends. *)
Definition wait_timed_out : exn :=
  Exn AssertionError "Locator expected condition not met".

(** The calls up to and including the navigation, when they all return. *)
Definition calls_to_navigation : list (call * option exn) :=
  [(Launch true, None); (NewContext, None); (NewPage, None);
   (Goto target_url None, None)].

(** ** Concrete environments *)

Definition no_fault : call → option exn := λ _, None.

(** A healthy browser and a healthy standard output in front of a page
    that shows everything at once and lists [n] memberships; each call
    takes 5 ms. *)
Definition static_page (n : nat) : env :=
  Env no_fault (λ _, 5) (λ _ _, true) (λ _ _, n) true true (λ _, true).

(** The same page with one membership, behind a browser in which the calls
    selected by [f] fail. *)
Definition faulty (f : call → option exn) : env :=
  Env f (λ _, 5) (λ _ _, true) (λ _ _, 1%nat) true true (λ _, true).

Definition target_closed : exn :=
  Exn PlaywrightError "Target page, context or browser has been closed".

Definition context_fails : call → option exn := λ c,
  match c with NewContext => Some target_closed | _ => None end.

Definition page_fails : call → option exn := λ c,
  match c with NewPage => Some target_closed | _ => None end.


(** The server is down and the page cannot even be captured. *)
Definition unreachable_and_no_capture : call → option exn := λ c,
  match c with
  | Goto _ _ => Some (Exn PlaywrightError "net::ERR_CONNECTION_REFUSED")
  | Screenshot _ _ => Some (Exn TimeoutError "Timeout 30000ms exceeded")
  | _ => None
  end.





(** The heading shows after 3 s, and the table stays empty. *)
Definition late_heading_empty_table : env :=
  Env no_fault (λ _, 5) (λ _ t, N.leb 3000 t) (λ _ _, 0%nat) true true (λ _, true).

(** A healthy browser and page; standard output is redirected to a full
    device and block buffered. *)
Definition full_device : env :=
  Env no_fault (λ _, 5) (λ _ _, true) (λ _ _, 1%nat) false true (λ _, true).

(** browser.close fails after everything else went well. *)
Definition close_fails : call → option exn := λ c,
  match c with Close => Some target_closed | _ => None end.


(** The Playwright driver cannot be started. *)
Definition start_fails : call → option exn := λ c,
  match c with
  | Start => Some (Exn PlaywrightError "Driver not found")
  | _ => None
  end.

(** ** Symbolic execution of the script *)

Ltac unfold_script :=
  unfold run_main, run, main, with_stmt, sync_playwright_enter, sync_playwright_exit,
    run_verification, try_finally, try_except, launch, new_context, new_page,
    goto, expect_to_be_visible, expect_to_have_count, screenshot, close,
    get_by_role, page_locator, print, await, invoke, mbind, mret, M_bind, M_ret, boot
    in *.

(** Name the finished run, so that its outcomes are split once. *)
Ltac name_run :=
  try match goal with
  | |- context [run_main ?E ?t ?d] =>
      let r := fresh "r" in let Hr := fresh "Hr" in
      remember (run_main E t d) as r eqn:Hr; revert Hr
  end;
  try match goal with
  | |- context [run ?E ?t ?d] =>
      let r := fresh "r" in let Hr := fresh "Hr" in
      remember (run E t d) as r eqn:Hr; revert Hr
  end.

(** Name the string literals of the script. *)
Ltac fold_strings :=
  set (s_saved := "Screenshot saved to jules-scratch/verification/verification.png") in *;
  set (s_url := "http://localhost:3000/memberships/listMembership") in *;
  set (s_ok := "jules-scratch/verification/verification.png") in *;
  set (s_err := "jules-scratch/verification/error.png") in *;
  set (s_role := "heading") in *;
  set (s_name := "Membresías") in *;
  set (s_rows := "#membershipsTableBody tr") in *;
  set (s_pre := "An error occurred: ") in *.

Ltac split_fault c :=
  match goal with
  | |- context [fault ?E c] => destruct (fault E c) eqn:?
  end.

(** Split on the outcomes in program order, the clock readings reduced, so
    that a call is examined only on the paths that reach it. *)
Ltac exec :=
  repeat (cbn [fst snd now record tick set_now emit write id];
          first
            [ split_fault Start
            | split_fault (Launch true)
            | split_fault NewContext
            | split_fault NewPage
            | match goal with
              | |- context [fault ?E (Goto ?u ?t)] => destruct (fault E (Goto u t)) eqn:?
              end
            | match goal with
              | |- context [fault ?E (ExpectVisible ?l ?t)] =>
                  destruct (fault E (ExpectVisible l t)) eqn:?
              end
            | match goal with
              | |- context [first_within (visible ?E ?l) ?s ?d] =>
                  destruct (first_within (visible E l) s d) eqn:?
              end
            | match goal with
              | |- context [fault ?E (ExpectCount ?l ?n ?t)] =>
                  destruct (fault E (ExpectCount l n t)) eqn:?
              end
            | match goal with
              | |- context [first_within ?p ?s ?d] => destruct (first_within p s d) eqn:?
              end
            | match goal with
              | |- context [is_Exception ?e] => destruct (is_Exception e) eqn:?
              end
            | match goal with
              | |- context [print_error ?E ?l] => destruct (print_error E l) eqn:?
              end
            | match goal with
              | |- context [fault ?E (Screenshot ?p ?f)] =>
                  destruct (fault E (Screenshot p f)) eqn:?
              end
            | split_fault Close
            | split_fault Stop ]);
  cbn [fst snd now record tick set_now emit write id].

(** Reduce the observations on an explicit world. *)
Ltac observe :=
  cbn [fst snd now trace fs stdout record tick set_now emit write id boot
       written omap list_omap app times length List.filter
       is_close is_wait is_stop last].

(** Membership in an explicit list of calls, one element at a time. *)
Ltac invert_in H :=
  repeat (apply elem_of_cons in H as [H | H]; [try discriminate H |]);
  try (by apply elem_of_nil in H).

(** Find an element in an explicit list. *)
Ltac find_in :=
  first [apply list_elem_of_here | apply list_elem_of_further; find_in].

(** ** Standard output: what a failing print implies *)

Lemma print_error_is_Exception E l e :
  print_error E l = Some e → is_Exception e = true.
Proof.
  unfold print_error. repeat case_match; intros [= <-]; reflexivity.
Qed.

(** A print that fails on ASCII text fails on every text: the device is
    refusing the bytes. *)
Lemma print_error_persists E l e l' :
  is_ascii l = true → print_error E l = Some e → print_error E l' ≠ None.
Proof.
  unfold print_error. intros ->. cbn [orb negb].
  destruct (negb (stdout_writable E) && negb (stdout_buffered E)); [| discriminate].
  intros _. by case_match.
Qed.

(** A writable standard output whose encoding covers every text accepts
    every line. *)
Lemma print_error_healthy E :
  stdout_writable E = true → (∀ l, stdout_encodes E l = true) →
  ∀ l, print_error E l = None.
Proof.
  intros Hw He l. unfold print_error. by rewrite He, orb_true_r, Hw.
Qed.

(** The paths that cannot be: a handled exception that is no Exception, and
    a success line refused where another line is accepted. *)
Ltac impossible :=
  try discriminate; try congruence;
  try match goal with
  | H : is_Exception (Exn _ _) = false |- _ => discriminate H
  end;
  try match goal with
  | Hp : print_error ?E ?l = Some ?e, Hb : is_Exception ?e = false |- _ =>
      rewrite (print_error_is_Exception E l e Hp) in Hb; discriminate Hb
  end;
  try match goal with
  | Hp : print_error ?E ?l = Some ?e, Hq : print_error ?E ?l' = None |- _ =>
      exfalso; exact (print_error_persists E l e l' eq_refl Hp Hq)
  end.

(** Set the statement aside while the run is executed, so that only the
    outcomes of the run itself are split. *)
Ltac hide_statement :=
  match goal with
  | |- ?r0 = _ → ?r1 = _ → ?G => is_var r0; is_var r1; set (statement := G)
  | |- ?r0 = _ → ?G => is_var r0; set (statement := G)
  end.

Ltac show_statement :=
  repeat match goal with
  | |- ?r = _ → _ => is_var r; intros ->
  end;
  match goal with
  | statement := _ |- _ => subst statement
  end.

(** Every outcome of the run named in the goal, one goal each. *)
Ltac run_paths :=
  name_run; unfold_script; fold_strings; hide_statement; exec; show_statement;
  observe; intros; subst; impossible.

(** ** Bounded waiting: what [first_within] finds *)

Lemma first_from_Some p t0 fuel t :
  first_from p t0 fuel = Some t →
  t0 ≤ t ∧ t < t0 + N.of_nat fuel ∧ p t = true.
Proof.
  revert t0. induction fuel as [|k IH]; intros t0; simpl; [discriminate|].
  destruct (p t0) eqn:Hp.
  - intros [= <-]. repeat split; [lia | lia | exact Hp].
  - intros H. apply IH in H as (? & ? & ?). repeat split; [lia | lia | assumption].
Qed.

Lemma first_from_None p t0 fuel :
  (∀ t, t0 ≤ t → t < t0 + N.of_nat fuel → p t = false) →
  first_from p t0 fuel = None.
Proof.
  revert t0. induction fuel as [|k IH]; intros t0 H; simpl; [reflexivity|].
  rewrite (H t0) by lia. apply IH. intros t ? ?. apply H; lia.
Qed.

Lemma first_within_Some p start window t :
  first_within p start window = Some t →
  start ≤ t ∧ t ≤ start + window ∧ p t = true.
Proof.
  unfold first_within. intros H. apply first_from_Some in H as (? & ? & ?).
  repeat split; [assumption | lia | assumption].
Qed.

Lemma first_within_None p start window :
  (∀ t, start ≤ t → t ≤ start + window → p t = false) →
  first_within p start window = None.
Proof.
  intros H. apply first_from_None. intros t ? ?. apply H; lia.
Qed.

(** ** Release of the browser session *)

(** C1 (amended): once the browser, the context and the page have been
    acquired, browser.close is called exactly once on every exit path
    (success, assertion failure, any other exception in the try block or in
    the handler), and it is the last call the routine makes. *)
Theorem close_once_after_acquisition E t0 disk :
  acquired E →
  times is_close (run E t0 disk).2 = 1%nat ∧
  ∃ o, last (trace (run E t0 disk).2) = Some (Close, o).
Proof.
  unfold acquired. run_paths; destruct_and?; impossible;
    (split; [reflexivity | eexists; reflexivity]).
Qed.

Lemma close_once_after_acquisition_witness :
  acquired (faulty unreachable_and_no_capture) ∧
  times is_close (run (faulty unreachable_and_no_capture) 0 ∅).2 = 1%nat.
Proof.
  split.
  - repeat split.
  - apply (close_once_after_acquisition (faulty unreachable_and_no_capture) 0 ∅).
    repeat split.
Defined.

(** C1 (as stated) fails: the browser is launched, creating the context
    raises, and browser.close is never called. *)
Lemma close_skipped_when_context_fails :
  let w := (run (faulty context_fails) 0 ∅).2 in
  (Launch true, None) ∈ trace w ∧ times is_close w = 0%nat.
Proof. vm_compute. split; [left | reflexivity]. Qed.

(** C9: when the launch returns and creating the context or the page
    raises, the exception leaves run_verification as it is, nothing is
    caught (no status line, no screenshot), and browser.close is never
    called: the acquisitions stand before the try block. *)
Theorem acquisition_failure_leaks_browser E t0 disk e :
  fault E (Launch true) = None →
  fault E NewContext = Some e ∨ (fault E NewContext = None ∧ fault E NewPage = Some e) →
  (run E t0 disk).1 = Raise e ∧
  (Launch true, None) ∈ trace (run E t0 disk).2 ∧
  times is_close (run E t0 disk).2 = 0%nat ∧
  stdout (run E t0 disk).2 = [] ∧
  written (run E t0 disk).2 = [].
Proof.
  intros Hl [Hc | [Hc Hp]]; unfold_script; rewrite Hl, Hc; try rewrite Hp;
    cbn; repeat split; by left.
Qed.

Lemma acquisition_failure_leaks_browser_witness :
  (run (faulty page_fails) 0 ∅).1 = Raise target_closed ∧
  times is_close (run (faulty page_fails) 0 ∅).2 = 0%nat.
Proof.
  pose proof (acquisition_failure_leaks_browser (faulty page_fails) 0 ∅ target_closed)
    as H.
  destruct H as (Hr & _ & Hn & _).
  - reflexivity.
  - right. split; reflexivity.
  - split; [exact Hr | exact Hn].
Defined.

(** C10: when the screenshot taken inside the handler raises, the run ends
    with an exception (that second exception, when browser.close returns),
    and browser.close has still been called, once, after the failed
    screenshot and as the last call. *)
Theorem handler_failure_propagates_after_close E t0 disk e2 :
  (Screenshot error_path None, Some e2) ∈ trace (run E t0 disk).2 →
  raised (run E t0 disk).1 ∧
  (fault E Close = None → (run E t0 disk).1 = Raise e2) ∧
  times is_close (run E t0 disk).2 = 1%nat ∧
  ∃ pre o, trace (run E t0 disk).2 =
           pre ++ [(Screenshot error_path None, Some e2); (Close, o)].
Proof.
  unfold error_path. run_paths;
    match goal with
    | Hin : (_, Some _) ∈ _ |- _ => invert_in Hin; injection Hin as <-
    end;
    (split_and!; [done .. |]);
    match goal with
    | |- ∃ pre o, ?l = _ =>
        let n := eval cbv in (length l - 2)%nat in
        exists (take n l); eexists; reflexivity
    end.
Qed.

Lemma handler_failure_propagates_after_close_witness :
  (run (faulty unreachable_and_no_capture) 0 ∅).1
    = Raise (Exn TimeoutError "Timeout 30000ms exceeded") ∧
  times is_close (run (faulty unreachable_and_no_capture) 0 ∅).2 = 1%nat.
Proof.
  pose proof (handler_failure_propagates_after_close
                (faulty unreachable_and_no_capture) 0 ∅
                (Exn TimeoutError "Timeout 30000ms exceeded")) as H.
  destruct H as (_ & Hr & Hn & _).
  - vm_compute. do 4 right. left.
  - split; [apply Hr; reflexivity | exact Hn].
Defined.

(** ** What the handler catches *)




(** ** Exit status of the script *)




(** A script that did everything right still exits with status 120 when
    standard output is block buffered and its device is full. *)
Example full_device_exits_120 :
  (run_main full_device 0 ∅).1 = Ok () ∧
  written (run_main full_device 0 ∅).2 = [success_path] ∧
  exit_status full_device (run_main full_device 0 ∅) = 120.
Proof. by vm_compute. Qed.

(** ** The screenshots *)

(** C5 (amended): every screenshot the routine takes, on the success path
    and on the error path alike, is requested with the path only, so that
    Playwright's default applies and the file written is a capture of the
    visible viewport, not of the full page. *)
Theorem screenshots_are_viewport_captures E t0 disk p :
  p ∈ written (run E t0 disk).2 →
  (p = success_path ∨ p = error_path) ∧
  (∃ o, (Screenshot p None, o) ∈ trace (run E t0 disk).2) ∧
  ∃ t, fs (run E t0 disk).2 !! p = Some (Image false t).
Proof.
  unfold success_path, error_path. run_paths.
  all: match goal with
       | Hin : _ ∈ _ |- _ => invert_in Hin
       end.
  all: subst; (split; [by auto |]); (split; [eexists; find_in |]).
  all: eexists; first [apply lookup_insert_eq | by rewrite lookup_insert_ne].
Qed.

Lemma screenshots_are_viewport_captures_witness :
  success_path ∈ written (run (static_page 1) 0 ∅).2 ∧
  ∃ t, fs (run (static_page 1) 0 ∅).2 !! success_path = Some (Image false t).
Proof.
  assert (Hin : success_path ∈ written (run (static_page 1) 0 ∅).2)
    by (vm_compute; left).
  split; [exact Hin |].
  apply (screenshots_are_viewport_captures (static_page 1) 0 ∅ success_path Hin).
Defined.

(** C5 (as stated) fails: on a page that passes both assertions the file at
    the success path is a viewport capture. *)
Lemma success_screenshot_is_not_full_page :
  let r := run (static_page 1) 0 ∅ in
  r.1 = Ok () ∧
  written r.2 = [success_path] ∧
  ∃ img, fs r.2 !! success_path = Some img ∧ img_full_page img = false.
Proof.
  split; [by vm_compute |]. split; [by vm_compute |].
  exists (Image false 25). split; [by vm_compute | reflexivity].
Qed.

(** ** The files written *)




(** ** Bounds on the waits *)

(** In every run each wait call carries the bound of 10000 ms, the
    navigation carries none, each wait is made at most once, and after a
    wait that raised only the handler and the finally block follow. *)
Lemma wait_calls_carry_bounds E t0 disk :
  Forall (λ x, is_wait x.1 = true → explicit_timeout x.1 = Some 10000)
         (trace (run E t0 disk).2) ∧
  Forall (λ x, is_goto x.1 = true → explicit_timeout x.1 = None)
         (trace (run E t0 disk).2) ∧
  (times is_wait (run E t0 disk).2 ≤ 2)%nat ∧
  definitive (trace (run E t0 disk).2) = true.
Proof.
  run_paths.
  all: split_and!; [| | lia | reflexivity].
  all: repeat (apply Forall_cons; split; [cbn; by intros |]); by apply Forall_nil.
Qed.

(** C7: in every run each wait call carries the bound of 10000 ms, the
    navigation carries no timeout, no wait is made twice, and after a wait
    that raised only the handler and the finally block follow.  With the
    browser acquired and no fault injected into the navigation or the
    waits, the navigation is called without a timeout and the wait for the
    heading with the bound of 10000 ms.  When the heading does not show
    within that window the wait raises at its end, 10000 ms after it
    started, and nothing is retried: only the handler and the finally block
    follow.  When the heading shows at [t1], the wait for the row count is
    called from [t1] with the bound of 10000 ms, and when the count is not
    1 within that window it raises at [t1 + 10000] in the same way. *)
Theorem waits_bounded_and_not_retried E t0 disk :
  (Forall (λ x, is_wait x.1 = true → explicit_timeout x.1 = Some 10000)
          (trace (run E t0 disk).2) ∧
   Forall (λ x, is_goto x.1 = true → explicit_timeout x.1 = None)
          (trace (run E t0 disk).2) ∧
   (times is_wait (run E t0 disk).2 ≤ 2)%nat ∧
   definitive (trace (run E t0 disk).2) = true) ∧
  (acquired E →
   fault E (Goto target_url None) = None →
   fault E (ExpectVisible heading 10000) = None →
   fault E (ExpectCount table_rows 1 10000) = None →
   (∃ o rest, trace (run E t0 disk).2
      = calls_to_navigation ++ (ExpectVisible heading 10000, o) :: rest) ∧
   ((∀ t, heading_wait_start E t0 ≤ t → t ≤ heading_wait_start E t0 + 10000 →
          visible E heading t = false) →
    ∃ rest,
      trace (run E t0 disk).2
        = calls_to_navigation
            ++ (ExpectVisible heading 10000, Some wait_timed_out) :: rest ∧
      Forall (λ x, is_cleanup x.1 = true) rest ∧
      heading_wait_start E t0 + 10000 ≤ now (run E t0 disk).2 ∧
      now (run E t0 disk).2
        ≤ heading_wait_start E t0 + 10000
          + latency E (Screenshot error_path None) + latency E Close) ∧
   (∀ t1, first_within (visible E heading) (heading_wait_start E t0) 10000 = Some t1 →
      (∃ o rest, trace (run E t0 disk).2
         = calls_to_navigation
             ++ (ExpectVisible heading 10000, None)
             :: (ExpectCount table_rows 1 10000, o) :: rest) ∧
      ((∀ t, t1 ≤ t → t ≤ t1 + 10000 → count E table_rows t ≠ 1%nat) →
       ∃ rest,
         trace (run E t0 disk).2
           = calls_to_navigation
               ++ (ExpectVisible heading 10000, None)
               :: (ExpectCount table_rows 1 10000, Some wait_timed_out) :: rest ∧
         Forall (λ x, is_cleanup x.1 = true) rest ∧
         t1 + 10000 ≤ now (run E t0 disk).2 ∧
         now (run E t0 disk).2
           ≤ t1 + 10000 + latency E (Screenshot error_path None) + latency E Close))).
Proof.
  split; [apply wait_calls_carry_bounds |].
  unfold acquired, calls_to_navigation, wait_timed_out, heading_wait_start,
    target_url, heading, table_rows, error_path.
  run_paths.
  all: destruct_and?; impossible.
  all: split_and!.
  all: try (do 2 eexists; reflexivity).
  (* the heading does not show *)
  all: try (intros Hnever;
            match goal with
            | Hw : first_within (visible _ _) _ _ = Some _ |- _ =>
                apply first_within_Some in Hw as (Hlo & Hhi & Hv);
                rewrite Hnever in Hv by assumption; discriminate Hv
            end).
  all: try (intros Hnever; eexists;
            split_and!; [reflexivity | | lia | lia];
            repeat (apply Forall_cons; split; [reflexivity |]); by apply Forall_nil).
  (* the heading shows at t1 *)
  all: intros t1 Ht1; simplify_eq.
  all: split; [do 2 eexists; reflexivity |].
  all: intros Hcount.
  all: try match goal with
       | Hw : first_within (λ _, Nat.eqb _ _) _ _ = Some _ |- _ =>
           apply first_within_Some in Hw as (Hlo & Hhi & Hv);
           apply Nat.eqb_eq in Hv; by apply Hcount in Hv
       end.
  all: eexists; split_and!; [reflexivity | | lia | lia];
       repeat (apply Forall_cons; split; [reflexivity |]); by apply Forall_nil.
Qed.

Lemma waits_bounded_and_not_retried_witness :
  13000 ≤ now (run late_heading_empty_table 0 ∅).2 ∧
  now (run late_heading_empty_table 0 ∅).2 ≤ 13010.
Proof.
  destruct (waits_bounded_and_not_retried late_heading_empty_table 0 ∅)
    as (_ & H).
  destruct H as (_ & _ & H); [repeat split | reflexivity ..|].
  destruct (H 3000) as (_ & H'); [by vm_compute |].
  destruct H' as (rest & _ & _ & Hlo & Hhi); [by intros t _ _ |].
  split; [exact Hlo | exact Hhi].
Defined.

(** A wait whose window ends without the condition raises AssertionError
    exactly [timeout] ms after it started. *)
Lemma await_times_out E c cond timeout w :
  fault E c = None →
  (∀ t, now w ≤ t → t ≤ now w + timeout → cond t = false) →
  (await E c cond timeout w).1 = Raise wait_timed_out ∧
  now (await E c cond timeout w).2 = now w + timeout.
Proof.
  intros Hf Hnever. unfold await. rewrite Hf, (first_within_None _ _ _ Hnever).
  split; reflexivity.
Qed.

(** A wait never lasts longer than its timeout. *)
Lemma await_bounded E c cond timeout w :
  now w ≤ now (await E c cond timeout w).2 ≤ now w + timeout.
Proof.
  unfold await. pose proof (N.le_min_r (latency E c) timeout).
  destruct (fault E c); cbn [snd record tick set_now now]; [lia |].
  destruct (first_within cond (now w) timeout) as [t|] eqn:Ht;
    cbn [snd record tick set_now now]; [| lia].
  apply first_within_Some in Ht. lia.
Qed.

(** ** A page without the heading *)




(** ** The row count *)

(** With a healthy browser and standard output, a heading that shows within
    its window and a table that holds exactly one row at some instant of
    the next window, the routine succeeds: it writes the success file only. *)
Lemma one_row_succeeds E t0 disk t1 t2 :
  (∀ c, fault E c = None) →
  (∀ l, print_error E l = None) →
  first_within (visible E heading) (heading_wait_start E t0) 10000 = Some t1 →
  first_within (λ t, Nat.eqb (count E table_rows t) 1) t1 10000 = Some t2 →
  (run E t0 disk).1 = Ok () ∧
  written (run E t0 disk).2 = [success_path] ∧
  fs (run E t0 disk).2 !! error_path = disk !! error_path.
Proof.
  intros Hf Hprint Hv Hc.
  unfold heading_wait_start, heading, table_rows, target_url, success_path, error_path in *.
  unfold_script. rewrite !Hf. cbn [fst snd now record tick id set_now].
  rewrite Hv. cbn [fst snd now record tick id set_now]. rewrite Hc, !Hprint.
  observe. split_and!; [reflexivity | reflexivity | by apply lookup_insert_ne].
Qed.

(** C2 fails on a page that shows the heading at once and lists two
    memberships: the wait for a row count of exactly 1 times out, the error
    file is written and the success file is not. *)
Theorem two_rows_take_the_error_path :
  let r := run (static_page 2) 0 ∅ in
  r.1 = Ok () ∧
  written r.2 = [error_path] ∧
  fs r.2 !! success_path = None ∧
  stdout r.2 = ["An error occurred: Locator expected condition not met"%string] ∧
  now r.2 = 10030.
Proof. by vm_compute. Qed.

(** The same page with a single membership passes. *)
Lemma single_row_passes :
  let r := run (static_page 1) 0 ∅ in
  r.1 = Ok () ∧ written r.2 = [success_path] ∧ fs r.2 !! error_path = None.
Proof.
  destruct (one_row_succeeds (static_page 1) 0 ∅ 20 20) as (Hr & Hw & Hfs);
    [done | by apply print_error_healthy | by vm_compute | by vm_compute |].
  cbv zeta. by rewrite Hr, Hw, Hfs.
Qed.

(** ** The module body *)

(** X1: once Playwright has started, the with statement shuts it down
    exactly once on every path, whatever run_verification did, and the
    shutdown is the last call of the process. *)
Theorem shutdown_once_after_start E t0 disk :
  fault E Start = None →
  times is_stop (run_main E t0 disk).2 = 1%nat ∧
  ∃ o, last (trace (run_main E t0 disk).2) = Some (Stop, o).
Proof.
  run_paths. all: split; [reflexivity | eexists; reflexivity].
Qed.

Lemma shutdown_once_after_start_witness :
  times is_stop (run_main (faulty context_fails) 0 ∅).2 = 1%nat ∧
  times is_close (run_main (faulty context_fails) 0 ∅).2 = 0%nat.
Proof.
  split; [| reflexivity].
  apply (shutdown_once_after_start (faulty context_fails) 0 ∅). reflexivity.
Defined.

(** X2: when Playwright cannot be started the script does nothing else: the
    exception leaves the module, no browser is launched, nothing is printed
    and the disk is as it was. *)
Theorem failed_start_does_nothing E t0 disk e :
  fault E Start = Some e →
  run_main E t0 disk
    = (Raise e, World (t0 + latency E Start) [(Start, Some e)] disk []).
Proof.
  intros Hs. unfold_script. rewrite Hs. reflexivity.
Qed.

Lemma failed_start_does_nothing_witness :
  (run_main (faulty start_fails) 0 ∅).1 = Raise (Exn PlaywrightError "Driver not found") ∧
  trace (run_main (faulty start_fails) 0 ∅).2
    = [(Start, Some (Exn PlaywrightError "Driver not found"))].
Proof.
  rewrite (failed_start_does_nothing (faulty start_fails) 0 ∅
             (Exn PlaywrightError "Driver not found") eq_refl).
  split; reflexivity.
Defined.

(** X3: the with statement adds no handling of its own.  When Playwright
    starts and shuts down normally, the script ends exactly as
    run_verification does: same result, same files written, same lines
    printed, and so the same exit status. *)
Theorem main_ends_as_run_verification E t0 disk :
  fault E Start = None →
  fault E Stop = None →
  (run_main E t0 disk).1 = (run E (t0 + latency E Start) disk).1 ∧
  fs (run_main E t0 disk).2 = fs (run E (t0 + latency E Start) disk).2 ∧
  stdout (run_main E t0 disk).2 = stdout (run E (t0 + latency E Start) disk).2 ∧
  written (run_main E t0 disk).2 = written (run E (t0 + latency E Start) disk).2 ∧
  exit_status E (run_main E t0 disk) = exit_status E (run E (t0 + latency E Start) disk).
Proof.
  unfold exit_status, flush_fails. run_paths. all: by split_and!.
Qed.

Lemma main_ends_as_run_verification_witness :
  (run_main (faulty page_fails) 0 ∅).1 = Raise target_closed.
Proof.
  destruct (main_ends_as_run_verification (faulty page_fails) 0 ∅) as (Hr & _);
    [reflexivity | reflexivity |].
  rewrite Hr. reflexivity.
Defined.

(** ** What a success screenshot proves *)

(** X4: the success file is written only after the navigation and both
    waits returned: the heading was visible at some instant of the first
    window, and the table held exactly one row at some instant of the
    window that followed. *)
Theorem success_file_means_checks_passed E t0 disk :
  success_path ∈ written (run E t0 disk).2 →
  (Goto target_url None, None) ∈ trace (run E t0 disk).2 ∧
  (ExpectVisible heading 10000, None) ∈ trace (run E t0 disk).2 ∧
  (ExpectCount table_rows 1 10000, None) ∈ trace (run E t0 disk).2 ∧
  ∃ t1 t2,
    heading_wait_start E t0 ≤ t1 ∧ t1 ≤ heading_wait_start E t0 + 10000 ∧
    visible E heading t1 = true ∧
    t1 ≤ t2 ∧ t2 ≤ t1 + 10000 ∧
    count E table_rows t2 = 1%nat.
Proof.
  unfold success_path, target_url, heading, table_rows, heading_wait_start.
  run_paths.
  all: match goal with
       | Hin : _ ∈ _ |- _ => invert_in Hin
       end.
  all: split_and!; [find_in | find_in | find_in |].
  all: repeat match goal with
       | H : first_within _ _ _ = Some _ |- _ =>
           apply first_within_Some in H as (? & ? & ?)
       end.
  all: do 2 eexists; split_and!; try eassumption; by apply Nat.eqb_eq.
Qed.

Lemma success_file_means_checks_passed_witness :
  (ExpectCount table_rows 1 10000, None) ∈ trace (run (static_page 1) 0 ∅).2.
Proof.
  apply (success_file_means_checks_passed (static_page 1) 0 ∅).
  vm_compute. left.
Defined.

(** X5: the success line is printed only after the success file has been
    written, and is printed then unless standard output refuses it; an
    error file is written only after the failure has been reported. *)
Theorem status_line_matches_file E t0 disk :
  (success_line ∈ stdout (run E t0 disk).2 → success_path ∈ written (run E t0 disk).2) ∧
  (success_path ∈ written (run E t0 disk).2 → print_error E success_line = None →
   success_line ∈ stdout (run E t0 disk).2) ∧
  (error_path ∈ written (run E t0 disk).2 →
   ∃ e, stdout (run E t0 disk).2 = [error_line e]).
Proof.
  unfold success_line, success_path, error_path, error_line.
  run_paths.
  all: split_and!.
  all: try (intros Hin; invert_in Hin; find_in).
  all: try (intros Hin Hp; invert_in Hin; impossible; find_in).
  all: intros Hin; invert_in Hin; by eexists.
Qed.

Lemma status_line_matches_file_witness :
  success_path ∈ written (run (static_page 1) 0 ∅).2.
Proof.
  apply (status_line_matches_file (static_page 1) 0 ∅).
  vm_compute. left.
Defined.

(** ** Exceptions the handler does not see *)



(** X7: an exception raised by browser.close in the finally block replaces
    whatever the run had reached: the routine raises it even when both
    checks passed and the success file is already written. *)
Theorem close_failure_is_raised E t0 disk e :
  acquired E →
  fault E Close = Some e →
  (run E t0 disk).1 = Raise e ∧
  last (trace (run E t0 disk).2) = Some (Close, Some e).
Proof.
  unfold acquired. run_paths.
  all: destruct_and?; simplify_eq; impossible.
  all: by split.
Qed.

Lemma close_failure_is_raised_witness :
  (run (faulty close_fails) 0 ∅).1 = Raise target_closed ∧
  written (run (faulty close_fails) 0 ∅).2 = [success_path].
Proof.
  split; [| by vm_compute].
  apply (close_failure_is_raised (faulty close_fails) 0 ∅ target_closed);
    [repeat split | reflexivity].
Defined.

(** ** How long a run can take *)

